(** * pygeoapi: the MVT PMTiles provider

    A shallow embedding of [pygeoapi/provider/mvt_pmtiles.py]: the
    constructor of [MVTPmtilesProvider] and its two metadata renderers,
    [get_html_metadata] and [get_vendor_metadata].

    Python dictionaries are finite maps with string keys, exceptions are an
    explicit result type, and the instance [self], the logger and the calls
    to the outside world (HTTP, file system) are threaded through a small
    state-and-exception monad. *)

From Stdlib Require Import Ascii.
From stdpp Require Import gmap strings list fin_maps.

Set Warnings "-register-all".
Open Scope string_scope.

(** ** Python values *)

(** The values that travel through the provider: what [json.loads] yields
    and what the renderers put in their dictionaries.  Numbers that are not
    integers are kept as their literal. *)
Inductive value : Type :=
  | VNone
  | VBool (b : bool)
  | VInt (n : Z)
  | VFloat (literal : string)
  | VStr (s : string)
  | VList (l : list value)
  | VDict (d : gmap string value).

(** [key in d] *)
Definition contains (key : string) (d : gmap string value) : bool :=
  bool_decide (is_Some (d !! key)).

(** ** Exceptions *)

Inductive exn : Type :=
  | ProviderConnectionError (msg : string)
  | KeyError (key : string)
  | AttributeError (msg : string)
  | ForeignError (cls msg : string).

Inductive result (A : Type) : Type :=
  | Return (a : A)
  | Raise (e : exn).
Arguments Return {A} a.
Arguments Raise {A} e.

(** ** Locations *)

(** [_service_url] and [_service_metadata_url] hold a [str] in the URL
    branch of the constructor and a [pathlib.Path] in the local branch.  A
    path is represented by its text. *)
Inductive location : Type :=
  | Url (s : string)
  | PosixPath (p : string).

(** What an f-string prints for a location. *)
Definition str (l : location) : string :=
  match l with
  | Url s => s
  | PosixPath p => p
  end.

(** [s.split(sep)[0]] for a non-empty [sep]: the text before the first
    occurrence of [sep], all of [s] when there is none. *)
Fixpoint split_0 (sep s : string) : string :=
  if String.prefix sep s then ""
  else match s with
       | EmptyString => ""
       | String c s' => String c (split_0 sep s')
       end.

(** ** The reshaped descriptor *)

(** Modelled from the spec: the class [MVTTilesJson] is declared in
    [pygeoapi.models.provider.mvt], outside this file.  The record has the
    fields the provider assigns (the optional descriptor fields, [tiles] and
    [vector_layers]); a fresh instance holds each field's type default, which
    is supplied by the environment below. *)
Record MVTTilesJson : Type := {
  name : value;
  description : value;
  attribution : value;
  bounds : value;
  center : value;
  minzoom : value;
  maxzoom : value;
  tiles : value;
  vector_layers : value
}.

Definition set_name (v : value) (c : MVTTilesJson) : MVTTilesJson :=
  {| name := v; description := description c; attribution := attribution c;
     bounds := bounds c; center := center c; minzoom := minzoom c;
     maxzoom := maxzoom c; tiles := tiles c; vector_layers := vector_layers c |}.

Definition set_description (v : value) (c : MVTTilesJson) : MVTTilesJson :=
  {| name := name c; description := v; attribution := attribution c;
     bounds := bounds c; center := center c; minzoom := minzoom c;
     maxzoom := maxzoom c; tiles := tiles c; vector_layers := vector_layers c |}.

Definition set_attribution (v : value) (c : MVTTilesJson) : MVTTilesJson :=
  {| name := name c; description := description c; attribution := v;
     bounds := bounds c; center := center c; minzoom := minzoom c;
     maxzoom := maxzoom c; tiles := tiles c; vector_layers := vector_layers c |}.

Definition set_bounds (v : value) (c : MVTTilesJson) : MVTTilesJson :=
  {| name := name c; description := description c; attribution := attribution c;
     bounds := v; center := center c; minzoom := minzoom c;
     maxzoom := maxzoom c; tiles := tiles c; vector_layers := vector_layers c |}.

Definition set_center (v : value) (c : MVTTilesJson) : MVTTilesJson :=
  {| name := name c; description := description c; attribution := attribution c;
     bounds := bounds c; center := v; minzoom := minzoom c;
     maxzoom := maxzoom c; tiles := tiles c; vector_layers := vector_layers c |}.

Definition set_minzoom (v : value) (c : MVTTilesJson) : MVTTilesJson :=
  {| name := name c; description := description c; attribution := attribution c;
     bounds := bounds c; center := center c; minzoom := v;
     maxzoom := maxzoom c; tiles := tiles c; vector_layers := vector_layers c |}.

Definition set_maxzoom (v : value) (c : MVTTilesJson) : MVTTilesJson :=
  {| name := name c; description := description c; attribution := attribution c;
     bounds := bounds c; center := center c; minzoom := minzoom c;
     maxzoom := v; tiles := tiles c; vector_layers := vector_layers c |}.

Definition set_tiles (v : value) (c : MVTTilesJson) : MVTTilesJson :=
  {| name := name c; description := description c; attribution := attribution c;
     bounds := bounds c; center := center c; minzoom := minzoom c;
     maxzoom := maxzoom c; tiles := v; vector_layers := vector_layers c |}.

Definition set_vector_layers (v : value) (c : MVTTilesJson) : MVTTilesJson :=
  {| name := name c; description := description c; attribution := attribution c;
     bounds := bounds c; center := center c; minzoom := minzoom c;
     maxzoom := maxzoom c; tiles := tiles c; vector_layers := v |}.

(** [content.dict()] *)
Definition dict (c : MVTTilesJson) : gmap string value :=
  <["name" := name c]> (
  <["description" := description c]> (
  <["attribution" := attribution c]> (
  <["bounds" := bounds c]> (
  <["center" := center c]> (
  <["minzoom" := minzoom c]> (
  <["maxzoom" := maxzoom c]> (
  <["tiles" := tiles c]> (
  <["vector_layers" := vector_layers c]> ∅)))))))).

(** ** The environment *)

(** [urllib.parse.urlparse], as far as the constructor reads it. *)
Record ParseResult : Type := {
  scheme : string;
  netloc : string;
  path : string
}.

Inductive level : Type := DEBUG | WARNING | ERROR.

(** Everything the module imports or inherits and does not define.  The
    answers of the network and of the file system may change over time, so
    they are indexed by a clock that every such call advances.

    Of these calls only [requests.head] and the descriptor fetch are given
    a way to raise; [get_layer], [urlparse], [url_join] and the [pathlib]
    calls are taken to return, and a fetch that returns is taken to return a
    dictionary.  What is proved below is proved of the executions in which
    they do. *)
Record World : Type := {
  (* pygeoapi.util *)
  is_url : string → bool;
  url_join : string → string → string;
  (* urllib.parse *)
  urlparse : string → ParseResult;
  (* pathlib: [Path(s)], [p.joinpath(q)] and [p.name] as text, [p.exists()] *)
  Path : string → string;
  joinpath : string → string → string;
  path_name : string → string;
  path_exists : nat → string → bool;
  (* requests: [requests.head(url).status_code], or what [head] raises *)
  requests_head : nat → string → result Z;
  (* MVTTippecanoeProvider *)
  get_layer : string → string;
  get_metadata_from_URL : nat → location → result (gmap string value);
  (* MVTTilesJson() *)
  MVTTilesJson_new : MVTTilesJson
}.

(** The same world with another answer to the descriptor fetches. *)
Definition with_fetch (w : World)
    (f : nat → location → result (gmap string value)) : World :=
  {| is_url := is_url w; url_join := url_join w; urlparse := urlparse w;
     Path := Path w; joinpath := joinpath w; path_name := path_name w;
     path_exists := path_exists w; requests_head := requests_head w;
     get_layer := get_layer w; get_metadata_from_URL := f;
     MVTTilesJson_new := MVTTilesJson_new w |}.

(** The same world with another answer to the HEAD requests. *)
Definition with_head (w : World) (h : nat → string → result Z) : World :=
  {| is_url := is_url w; url_join := url_join w; urlparse := urlparse w;
     Path := Path w; joinpath := joinpath w; path_name := path_name w;
     path_exists := path_exists w; requests_head := h;
     get_layer := get_layer w;
     get_metadata_from_URL := get_metadata_from_URL w;
     MVTTilesJson_new := MVTTilesJson_new w |}.

(** The same world with another file system. *)
Definition with_exists (w : World) (ex : nat → string → bool) : World :=
  {| is_url := is_url w; url_join := url_join w; urlparse := urlparse w;
     Path := Path w; joinpath := joinpath w; path_name := path_name w;
     path_exists := ex; requests_head := requests_head w;
     get_layer := get_layer w;
     get_metadata_from_URL := get_metadata_from_URL w;
     MVTTilesJson_new := MVTTilesJson_new w |}.

(** Modelled from the spec: the descriptor fetch [get_metadata_from_URL] is
    inherited from [MVTTippecanoeProvider] and is not defined in this file.
    Its contract is that, given a metadata location (URL or path), it
    returns the parsed descriptor document, or fails with a connection error
    if the location is unreachable, unreadable, or not valid structured
    data.  [served t u] is the document behind the URL [u] at time [t] and
    [stored t p] the one in the file [p], [None] when there is nothing to
    read or it does not parse; a file that does not exist is unreachable. *)
Definition fetch_descriptor (w : World)
    (served stored : nat → string → option (gmap string value))
    (t : nat) (l : location) : result (gmap string value) :=
  match l with
  | Url u =>
      match served t u with
      | Some doc => Return doc
      | None => Raise (ProviderConnectionError (str l))
      end
  | PosixPath p =>
      if path_exists w t p then
        match stored t p with
        | Some doc => Return doc
        | None => Raise (ProviderConnectionError (str l))
        end
      else Raise (ProviderConnectionError (str l))
  end.

(** ** State and the monad *)

(** The instance, as [MVTTippecanoeProvider.__init__] leaves it and as
    the methods below see it. *)
Record Provider : Type := {
  data : string;
  _service_url : location;
  _service_metadata_url : location
}.

Record State : Type := {
  self : Provider;
  clock : nat;
  log : list (level * string)
}.

Definition M (A : Type) : Type := State → result A * State.

#[export] Instance M_ret : MRet M := λ A a s, (Return a, s).

#[export] Instance M_bind : MBind M := λ A B f m s,
  match m s with
  | (Return a, s') => f a s'
  | (Raise e, s') => (Raise e, s')
  end.

Definition raise {A : Type} (e : exn) : M A := λ s, (Raise e, s).

(** [try: body / except ProviderConnectionError: handler] *)
Definition try_except_ProviderConnectionError {A : Type}
    (body : M A) (handler : M A) : M A := λ s,
  match body s with
  | (Raise (ProviderConnectionError _), s') => handler s'
  | r => r
  end.

Definition tick (s : State) : State :=
  {| self := self s; clock := S (clock s); log := log s |}.

Definition LOGGER (lvl : level) (msg : string) : M () := λ s,
  (Return (), {| self := self s; clock := clock s; log := log s ++ [(lvl, msg)] |}).

Definition self_data : M string := λ s, (Return (data (self s)), s).

(** Modelled from the spec: the read-only properties [service_url] and
    [service_metadata_url] are declared on the parent class; they expose the
    two stored locations. *)
Definition service_url : M location := λ s, (Return (_service_url (self s)), s).

Definition service_metadata_url : M location :=
  λ s, (Return (_service_metadata_url (self s)), s).

Definition set_service_url (l : location) : M () := λ s,
  (Return (),
   {| self := {| data := data (self s); _service_url := l;
                 _service_metadata_url := _service_metadata_url (self s) |};
      clock := clock s; log := log s |}).

Definition set_service_metadata_url (l : location) : M () := λ s,
  (Return (),
   {| self := {| data := data (self s); _service_url := _service_url (self s);
                 _service_metadata_url := l |};
      clock := clock s; log := log s |}).

(** [d[key]] *)
Definition getitem (d : gmap string value) (key : string) : M value :=
  match d !! key with
  | Some v => mret v
  | None => raise (KeyError key)
  end.

(** [if key in doc: content.<field> = doc[key]] *)
Definition copy_if_present (key : string)
    (setter : value → MVTTilesJson → MVTTilesJson)
    (doc : gmap string value) (content : MVTTilesJson) : M MVTTilesJson :=
  if contains key doc then v ← getitem doc key; mret (setter v content)
  else mret content.

(** ** class MVTPmtilesProvider *)

Module MVTPmtilesProvider.
Section Methods.
Variable w : World.

(** The calls that leave the process read the world at the current clock
    and advance it. *)
Definition head (url : string) : M Z := λ s,
  (requests_head w (clock s) url, tick s).

Definition exists_ (p : string) : M bool := λ s,
  (Return (path_exists w (clock s) p), tick s).

Definition fetch (l : location) : M (gmap string value) := λ s,
  (get_metadata_from_URL w (clock s) l, tick s).

(** [service_url.split(sep)[0]]; a [Path] has no [split]. *)
Definition location_split_0 (l : location) (sep : string) : M string :=
  match l with
  | Url u => mret (split_0 sep u)
  | PosixPath _ =>
      raise (AttributeError "'PosixPath' object has no attribute 'split'")
  end.

(** [__init__], after [super().__init__] has run. *)
Definition __init__ : M () :=
  self_data ← self_data;
  (* Pre-rendered tiles served from a static url *)
  if is_url w self_data then
    let url := urlparse w self_data in
    let baseurl := scheme url ++ "://" ++ netloc url in
    let layer := "/" ++ get_layer w self_data in
    LOGGER DEBUG "Extracting layer name from URL";;
    LOGGER DEBUG ("Layer: " ++ layer);;
    let tilepath := layer ++ "/tiles" in
    let servicepath :=
      tilepath ++ "/{tileMatrixSetId}/{tileMatrix}/{tileRow}/{tileCol}?f=mvt" in
    set_service_url (Url (url_join w baseurl servicepath));;
    su ← service_url;
    pre ← location_split_0 su "{tileMatrix}/{tileRow}/{tileCol}";
    set_service_metadata_url (Url (url_join w pre "metadata"));;
    let metadata_path := baseurl ++ "/" ++ layer ++ ".json" in
    status_code ← head metadata_path;
    (if negb (status_code =? 200)%Z then
       let msg := "Service metadata does not exist: " ++ metadata_path in
       LOGGER ERROR msg;;
       LOGGER WARNING msg
     else mret ());;
    set_service_metadata_url (Url metadata_path)
  (* Pre-rendered tiles served from a local path *)
  else
    let data_path := Path w self_data in
    found ← exists_ data_path;
    (if negb found then
       let msg := "Service does not exist: " ++ self_data in
       LOGGER ERROR msg;;
       raise (ProviderConnectionError msg)
     else mret ());;
    set_service_url (PosixPath data_path);;
    let metadata_path := joinpath w data_path "metadata" in
    found ← exists_ metadata_path;
    (if negb found then
       let msg :=
         "Service metadata does not exist: " ++ path_name w metadata_path in
       LOGGER ERROR msg;;
       LOGGER WARNING msg
     else mret ());;
    set_service_metadata_url (PosixPath metadata_path).

(** [__repr__] *)
Definition __repr__ : M string :=
  self_data ← self_data;
  mret ("<MVTPmtilesProvider> " ++ self_data).

(** The field-by-field copy both renderers perform on the fetched
    document, up to and including [vector_layers]. *)
Definition reshape (tile_url : string)
    (metadata_json_content : gmap string value) : M MVTTilesJson :=
  let content := MVTTilesJson_new w in
  content ← copy_if_present "name" set_name metadata_json_content content;
  content ← copy_if_present "description" set_description
              metadata_json_content content;
  content ← copy_if_present "attribution" set_attribution
              metadata_json_content content;
  content ← copy_if_present "bounds" set_bounds metadata_json_content content;
  content ← copy_if_present "center" set_center metadata_json_content content;
  content ← copy_if_present "minzoom" set_minzoom metadata_json_content content;
  content ← copy_if_present "maxzoom" set_maxzoom metadata_json_content content;
  let content := set_tiles (VList [VStr tile_url]) content in
  vl ← getitem metadata_json_content "vector_layers";
  mret (set_vector_layers vl content).

Definition get_html_metadata (dataset server_url layer tileset : string)
    (title description keywords : value) (kwargs : gmap string value)
    : M (gmap string value) :=
  let service_url := url_join w server_url
    ("collections/" ++ dataset ++ "/tiles/" ++ tileset
       ++ "/{tileMatrix}/{tileRow}/{tileCol}?f=mvt") in
  let metadata_url := url_join w server_url
    ("collections/" ++ dataset ++ "/tiles/" ++ tileset ++ "/metadata") in
  let metadata : gmap string value := ∅ in
  let metadata := <["id" := VStr dataset]> metadata in
  let metadata := <["title" := title]> metadata in
  let metadata := <["tileset" := VStr tileset]> metadata in
  let metadata := <["collections_path" := VStr service_url]> metadata in
  let metadata := <["json_url" := VStr (metadata_url ++ "?f=json")]> metadata in
  try_except_ProviderConnectionError
    (location ← service_metadata_url;
     metadata_json_content ← fetch location;
     content ← reshape service_url metadata_json_content;
     let metadata := <["metadata" := VDict (dict content)]> metadata in
     (* Some providers may not implement tilejson metadata *)
     let metadata :=
       <["tilejson_url" := VStr (metadata_url ++ "?f=tilejson")]> metadata in
     mret metadata)
    (* No vendor metadata JSON *)
    (mret metadata).

(** Gets tile metadata in tilejson format *)
Definition get_vendor_metadata (dataset server_url layer tileset : string)
    (title description keywords : value) (kwargs : gmap string value)
    : M (gmap string value) :=
  try_except_ProviderConnectionError
    (location ← service_metadata_url;
     metadata_json_content ← fetch location;
     let service_url := url_join w server_url
       ("collections/" ++ dataset ++ "/tiles/" ++ tileset
          ++ "/{z}/{x}/{y}?f=mvt") in
     content ← reshape service_url metadata_json_content;
     mret (dict content))
    (location ← service_metadata_url;
     let msg := "No tiles metadata json available: " ++ str location in
     LOGGER ERROR msg;;
     raise (ProviderConnectionError msg)).

End Methods.
End MVTPmtilesProvider.

(** ** Callers *)

(** One call of a renderer, with its arguments in the order of the Python
    signature: dataset, server_url, layer, tileset, title, description,
    keywords and the extra keyword arguments. *)
Inductive call : Type :=
  | html (dataset server_url layer tileset : string)
         (title description keywords : value) (kwargs : gmap string value)
  | vendor (dataset server_url layer tileset : string)
           (title description keywords : value) (kwargs : gmap string value).

Definition perform (w : World) (c : call) : M (gmap string value) :=
  match c with
  | html ds su la ts ti de ke kw =>
      MVTPmtilesProvider.get_html_metadata w ds su la ts ti de ke kw
  | vendor ds su la ts ti de ke kw =>
      MVTPmtilesProvider.get_vendor_metadata w ds su la ts ti de ke kw
  end.

(** A caller that issues the calls one after the other on the same
    instance and keeps every outcome, raised exceptions included. *)
Fixpoint run (w : World) (cs : list call) (s : State)
    : list (result (gmap string value)) * State :=
  match cs with
  | [] => ([], s)
  | c :: cs' =>
      let (r, s') := perform w c s in
      let (rs, s'') := run w cs' s' in
      (r :: rs, s'')
  end.

(** ** Closed forms

    What the methods compute, written without the monad.  The lemmas below
    prove that the methods agree with these; the properties are stated on
    the methods. *)

Section ClosedForms.
Variable w : World.

(** What [reshape] builds from a document that has [vector_layers]. *)
Definition reshaped (tile_url : string) (doc : gmap string value)
    (vl : value) : MVTTilesJson :=
  let new := MVTTilesJson_new w in
  {| name := default (name new) (doc !! "name");
     description := default (description new) (doc !! "description");
     attribution := default (attribution new) (doc !! "attribution");
     bounds := default (bounds new) (doc !! "bounds");
     center := default (center new) (doc !! "center");
     minzoom := default (minzoom new) (doc !! "minzoom");
     maxzoom := default (maxzoom new) (doc !! "maxzoom");
     tiles := VList [VStr tile_url];
     vector_layers := vl |}.

(** The dictionary [get_html_metadata] has built when it reaches [try]. *)
Definition envelope (dataset server_url tileset : string) (title : value)
    : gmap string value :=
  <["json_url" := VStr (url_join w server_url
      ("collections/" ++ dataset ++ "/tiles/" ++ tileset ++ "/metadata")
      ++ "?f=json")]> (
  <["collections_path" := VStr (url_join w server_url
      ("collections/" ++ dataset ++ "/tiles/" ++ tileset
         ++ "/{tileMatrix}/{tileRow}/{tileCol}?f=mvt"))]> (
  <["tileset" := VStr tileset]> (
  <["title" := title]> (
  <["id" := VStr dataset]> ∅)))).

(** The outcome of [get_html_metadata] as a function of the outcome of
    its one descriptor fetch. *)
Definition html_view (dataset server_url tileset : string) (title : value)
    (fetched : result (gmap string value)) : result (gmap string value) :=
  match fetched with
  | Raise (ProviderConnectionError _) =>
      Return (envelope dataset server_url tileset title)
  | Raise e => Raise e
  | Return doc =>
      match doc !! "vector_layers" with
      | None => Raise (KeyError "vector_layers")
      | Some vl =>
          Return (
            <["tilejson_url" := VStr (url_join w server_url
                ("collections/" ++ dataset ++ "/tiles/" ++ tileset
                   ++ "/metadata") ++ "?f=tilejson")]> (
            <["metadata" := VDict (dict (reshaped
                (url_join w server_url
                   ("collections/" ++ dataset ++ "/tiles/" ++ tileset
                      ++ "/{tileMatrix}/{tileRow}/{tileCol}?f=mvt"))
                doc vl))]> (envelope dataset server_url tileset title)))
      end
  end.

(** The same for [get_vendor_metadata], on an instance whose descriptor
    lives at [location]. *)
Definition vendor_view (dataset server_url tileset : string)
    (location : location) (fetched : result (gmap string value))
    : result (gmap string value) :=
  match fetched with
  | Raise (ProviderConnectionError _) =>
      Raise (ProviderConnectionError
               ("No tiles metadata json available: " ++ str location))
  | Raise e => Raise e
  | Return doc =>
      match doc !! "vector_layers" with
      | None => Raise (KeyError "vector_layers")
      | Some vl =>
          Return (dict (reshaped
            (url_join w server_url
               ("collections/" ++ dataset ++ "/tiles/" ++ tileset
                  ++ "/{z}/{x}/{y}?f=mvt"))
            doc vl))
      end
  end.

(** What [get_vendor_metadata] adds to the log. *)
Definition vendor_log (location : location)
    (fetched : result (gmap string value)) : list (level * string) :=
  match fetched with
  | Raise (ProviderConnectionError _) =>
      [(ERROR, "No tiles metadata json available: " ++ str location)]
  | _ => []
  end.

(** The text the URL branch writes into [_service_metadata_url]. *)
Definition metadata_json (d : string) : string :=
  (scheme (urlparse w d) ++ "://" ++ netloc (urlparse w d))
    ++ "/" ++ ("/" ++ get_layer w d) ++ ".json".

Definition service_template (d : string) : string :=
  url_join w (scheme (urlparse w d) ++ "://" ++ netloc (urlparse w d))
    ((("/" ++ get_layer w d) ++ "/tiles")
       ++ "/{tileMatrixSetId}/{tileMatrix}/{tileRow}/{tileCol}?f=mvt").

Definition head_log (d : string) (status_code : Z) : list (level * string) :=
  if (status_code =? 200)%Z then []
  else [(ERROR, "Service metadata does not exist: " ++ metadata_json d);
        (WARNING, "Service metadata does not exist: " ++ metadata_json d)].

(** What the URL branch first writes into [_service_metadata_url], before
    the HEAD request. *)
Definition metadata_interim (d : string) : string :=
  url_join w
    (split_0 "{tileMatrix}/{tileRow}/{tileCol}" (service_template d))
    "metadata".

(** The state the URL branch is in when it sends the HEAD request. *)
Definition before_head (s : State) : State :=
  {| self := {| data := data (self s);
                _service_url := Url (service_template (data (self s)));
                _service_metadata_url :=
                  Url (metadata_interim (data (self s))) |};
     clock := clock s;
     log := log s
            ++ [(DEBUG, "Extracting layer name from URL");
                (DEBUG, "Layer: " ++ "/" ++ get_layer w (data (self s)))] |}.

(** Where a constructed instance keeps its descriptor. *)
Definition metadata_location (d : string) : location :=
  if is_url w d then Url (metadata_json d)
  else PosixPath (joinpath w (Path w d) "metadata").

(** The file the local branch looks for. *)
Definition metadata_file (d : string) : string :=
  joinpath w (Path w d) "metadata".

Definition metadata_file_log (d : string) (found : bool)
    : list (level * string) :=
  if found then []
  else [(ERROR, "Service metadata does not exist: "
                  ++ path_name w (metadata_file d));
        (WARNING, "Service metadata does not exist: "
                    ++ path_name w (metadata_file d))].

(** The outcome of one call on the instance [p], given the outcome of
    its descriptor fetch. *)
Definition outcome (p : Provider) (c : call)
    (fetched : result (gmap string value)) : result (gmap string value) :=
  match c with
  | html ds su la ts ti de ke kw => html_view ds su ts ti fetched
  | vendor ds su la ts ti de ke kw =>
      vendor_view ds su ts (_service_metadata_url p) fetched
  end.

End ClosedForms.

(** The keys of the fetched document the renderers read. *)
Definition descriptor_keys : list string :=
  ["name"; "description"; "attribution"; "bounds"; "center"; "minzoom";
   "maxzoom"; "vector_layers"].

(** ** A sample deployment *)

Module Sample.

Fixpoint lstrip_slash (s : string) : string :=
  match s with
  | String "/"%char s' => lstrip_slash s'
  | _ => s
  end.

Definition rstrip_slash (s : string) : string :=
  String.rev (lstrip_slash (String.rev s)).

(** A join that drops the slashes around each part. *)
Definition join (a b : string) : string :=
  rstrip_slash (rstrip_slash (lstrip_slash a) ++ "/"
                  ++ rstrip_slash (lstrip_slash b)).

(** The text after the last slash. *)
Fixpoint basename (acc s : string) : string :=
  match s with
  | EmptyString => acc
  | String "/"%char s' => basename "" s'
  | String c s' => basename (acc ++ String c "") s'
  end.

Definition blank : MVTTilesJson :=
  {| name := VNone; description := VNone; attribution := VNone;
     bounds := VNone; center := VNone; minzoom := VNone; maxzoom := VNone;
     tiles := VNone; vector_layers := VNone |}.

Definition tiles_url : string := "http://localhost:8000/ne/{z}/{x}/{y}".

(** A tile server at [tiles_url] (the only URL this world parses) whose
    HEAD requests are answered by [head_answer], a file system holding
    the paths [files], and descriptor fetches answered by [fetch_answer]. *)
Definition world (files : list string) (head_answer : result Z)
    (fetch_answer : nat → result (gmap string value)) : World :=
  {| is_url := String.prefix "http://";
     url_join := join;
     urlparse := λ _, {| scheme := "http"; netloc := "localhost:8000";
                         path := "/ne/{z}/{x}/{y}" |};
     Path := λ p, p;
     joinpath := λ p q, p ++ "/" ++ q;
     path_name := basename "";
     path_exists := λ _ p, bool_decide (p ∈ files);
     requests_head := λ _ _, head_answer;
     get_layer := λ _, "ne";
     get_metadata_from_URL := λ t _, fetch_answer t;
     MVTTilesJson_new := blank |}.

Definition unreachable (t : nat) : result (gmap string value) :=
  Raise (ProviderConnectionError "unreachable").

(** The instance before the constructor body runs. *)
Definition fresh (d : string) : State :=
  {| self := {| data := d; _service_url := Url ""; _service_metadata_url := Url "" |};
     clock := 0; log := [] |}.

Definition roads : gmap string value :=
  <["minzoom" := VInt 0]> (
  <["maxzoom" := VInt 14]> (
  <["vector_layers" := VList [VDict {["id" := VStr "roads"]}]]> ∅)).

End Sample.


(** ** Strings *)

Lemma append_length (a b : string) :
  String.length (a ++ b) = String.length a + String.length b.
Proof. induction a as [|c a IH]; simpl; [done | by rewrite IH]. Qed.

Lemma append_cancel_l (a b c : string) : a ++ b = a ++ c → b = c.
Proof.
  induction a as [|x a IH]; simpl; intros H; [done |].
  injection H as H. by apply IH.
Qed.

(** Two slashes after the base never spell the same text as one. *)
Lemma double_slash_differs (base layer : string) :
  base ++ "/" ++ ("/" ++ layer) ++ ".json" ≠ base ++ "/" ++ layer ++ ".json".
Proof.
  intros H. apply append_cancel_l in H.
  apply (f_equal String.length) in H. simpl in H.
  rewrite !append_length in H. simpl in H. lia.
Qed.

(** ** The reshaping *)

Section Reshape.
Variable w : World.

Lemma copy_if_present_eq key setter doc content s :
  copy_if_present key setter doc content s
  = (Return (match doc !! key with
             | Some v => setter v content
             | None => content
             end), s).
Proof.
  unfold copy_if_present, contains, getitem.
  destruct (doc !! key) as [v|]; reflexivity.
Qed.

Lemma reshape_eq tile_url doc s :
  MVTPmtilesProvider.reshape w tile_url doc s
  = (match doc !! "vector_layers" with
     | Some vl => Return (reshaped w tile_url doc vl)
     | None => Raise (KeyError "vector_layers")
     end, s).
Proof.
  unfold MVTPmtilesProvider.reshape, mbind, M_bind.
  rewrite !copy_if_present_eq.
  unfold getitem, reshaped.
  destruct (doc !! "vector_layers") as [vl|]; [| reflexivity].
  destruct (doc !! "name"), (doc !! "description"), (doc !! "attribution"),
    (doc !! "bounds"), (doc !! "center"), (doc !! "minzoom"),
    (doc !! "maxzoom"); reflexivity.
Qed.

End Reshape.

(** ** The renderers in closed form *)

Section Views.
Variable w : World.

Lemma get_html_metadata_eq ds su la ts ti de ke kw s :
  MVTPmtilesProvider.get_html_metadata w ds su la ts ti de ke kw s
  = (html_view w ds su ts ti
       (get_metadata_from_URL w (clock s) (_service_metadata_url (self s))),
     tick s).
Proof.
  unfold MVTPmtilesProvider.get_html_metadata,
    try_except_ProviderConnectionError, mbind, M_bind,
    service_metadata_url, MVTPmtilesProvider.fetch, html_view.
  destruct (get_metadata_from_URL w (clock s) _) as [doc|e].
  - rewrite reshape_eq.
    destruct (doc !! "vector_layers"); reflexivity.
  - destruct e; reflexivity.
Qed.

Lemma get_vendor_metadata_eq ds su la ts ti de ke kw s :
  MVTPmtilesProvider.get_vendor_metadata w ds su la ts ti de ke kw s
  = let location := _service_metadata_url (self s) in
    let fetched := get_metadata_from_URL w (clock s) location in
    (vendor_view w ds su ts location fetched,
     {| self := self s; clock := S (clock s);
        log := log s ++ vendor_log location fetched |}).
Proof.
  unfold MVTPmtilesProvider.get_vendor_metadata,
    try_except_ProviderConnectionError, mbind, M_bind,
    service_metadata_url, MVTPmtilesProvider.fetch, vendor_view, vendor_log.
  cbv zeta.
  destruct (get_metadata_from_URL w (clock s) _) as [doc|e].
  - rewrite reshape_eq.
    destruct (doc !! "vector_layers"); simpl; by rewrite app_nil_r.
  - destruct e; simpl; rewrite ?app_nil_r; reflexivity.
Qed.

End Views.

(** ** Construction *)

Section Construction.
Variable w : World.

Lemma init_url_response s status_code :
  is_url w (data (self s)) = true →
  requests_head w (clock s) (metadata_json w (data (self s)))
    = Return status_code →
  MVTPmtilesProvider.__init__ w s
  = (Return (),
     {| self := {| data := data (self s);
                   _service_url := Url (service_template w (data (self s)));
                   _service_metadata_url :=
                     Url (metadata_json w (data (self s))) |};
        clock := S (clock s);
        log := log s
               ++ [(DEBUG, "Extracting layer name from URL");
                   (DEBUG, "Layer: " ++ "/" ++ get_layer w (data (self s)))]
               ++ head_log w (data (self s)) status_code |}).
Proof.
  intros Hurl Hhead.
  unfold MVTPmtilesProvider.__init__, mbind, M_bind, self_data.
  rewrite Hurl. cbn -[String.append Z.eqb].
  unfold metadata_json in Hhead. rewrite Hhead.
  unfold head_log, metadata_json, service_template.
  destruct (status_code =? 200)%Z; cbn -[String.append];
    do 2 f_equal; f_equal; rewrite <- ?app_assoc, ?app_nil_r; reflexivity.
Qed.

Lemma init_url_head_raises s e :
  is_url w (data (self s)) = true →
  requests_head w (clock s) (metadata_json w (data (self s))) = Raise e →
  (MVTPmtilesProvider.__init__ w s).1 = Raise e.
Proof.
  intros Hurl Hhead.
  unfold MVTPmtilesProvider.__init__, mbind, M_bind, self_data.
  rewrite Hurl. cbn -[String.append Z.eqb].
  unfold metadata_json in Hhead. rewrite Hhead. reflexivity.
Qed.

Lemma init_local_missing s :
  is_url w (data (self s)) = false →
  path_exists w (clock s) (Path w (data (self s))) = false →
  MVTPmtilesProvider.__init__ w s
  = (Raise (ProviderConnectionError
              ("Service does not exist: " ++ data (self s))),
     {| self := self s; clock := S (clock s);
        log := log s
               ++ [(ERROR, "Service does not exist: " ++ data (self s))] |}).
Proof.
  intros Hurl Hdir.
  unfold MVTPmtilesProvider.__init__, mbind, M_bind, self_data.
  rewrite Hurl. cbn -[String.append]. rewrite Hdir. reflexivity.
Qed.

Lemma init_local_present s :
  is_url w (data (self s)) = false →
  path_exists w (clock s) (Path w (data (self s))) = true →
  MVTPmtilesProvider.__init__ w s
  = (Return (),
     {| self := {| data := data (self s);
                   _service_url := PosixPath (Path w (data (self s)));
                   _service_metadata_url :=
                     PosixPath (metadata_file w (data (self s))) |};
        clock := S (S (clock s));
        log := log s
               ++ metadata_file_log w (data (self s))
                    (path_exists w (S (clock s))
                       (metadata_file w (data (self s)))) |}).
Proof.
  intros Hurl Hdir.
  unfold MVTPmtilesProvider.__init__, mbind, M_bind, self_data.
  rewrite Hurl. cbn -[String.append]. rewrite Hdir.
  cbn -[String.append]. unfold metadata_file_log, metadata_file.
  destruct (path_exists w (S (clock s)) _); cbn -[String.append];
    do 2 f_equal; f_equal; rewrite <- ?app_assoc, ?app_nil_r; reflexivity.
Qed.

End Construction.

(** ** Sequences of calls *)

Section Runs.
Variable w : World.

Lemma perform_outcome c s :
  (perform w c s).1
  = outcome w (self s) c
      (get_metadata_from_URL w (clock s) (_service_metadata_url (self s))).
Proof.
  destruct c; simpl.
  - by rewrite get_html_metadata_eq.
  - by rewrite get_vendor_metadata_eq.
Qed.

Lemma perform_self c s : self (perform w c s).2 = self s.
Proof.
  destruct c; simpl.
  - by rewrite get_html_metadata_eq.
  - by rewrite get_vendor_metadata_eq.
Qed.

Lemma perform_clock c s : clock (perform w c s).2 = S (clock s).
Proof.
  destruct c; simpl.
  - by rewrite get_html_metadata_eq.
  - by rewrite get_vendor_metadata_eq.
Qed.

Lemma run_cons c cs s :
  run w (c :: cs) s
  = ((perform w c s).1 :: (run w cs (perform w c s).2).1,
     (run w cs (perform w c s).2).2).
Proof.
  simpl. destruct (perform w c s) as [r s']. simpl.
  by destruct (run w cs s').
Qed.

Lemma run_self cs s : self (run w cs s).2 = self s.
Proof.
  revert s. induction cs as [|c cs IH]; intros s; [done |].
  rewrite run_cons. simpl. by rewrite IH, perform_self.
Qed.

Lemma run_clock cs s : clock (run w cs s).2 = clock s + length cs.
Proof.
  revert s. induction cs as [|c cs IH]; intros s.
  - simpl. lia.
  - rewrite run_cons. simpl. rewrite IH, perform_clock. lia.
Qed.

Lemma run_lookup cs s i c :
  cs !! i = Some c →
  (run w cs s).1 !! i
  = Some (outcome w (self s) c
            (get_metadata_from_URL w (clock s + i)
               (_service_metadata_url (self s)))).
Proof.
  revert s i. induction cs as [|c' cs IH]; intros s i Hc; [done |].
  rewrite run_cons. destruct i as [|i]; simpl in *.
  - injection Hc as ->. rewrite perform_outcome. do 3 f_equal. lia.
  - rewrite (IH _ _ Hc), perform_self, perform_clock.
    do 3 f_equal. lia.
Qed.

End Runs.

(** ** The sample deployment, run *)

Example sample_init_url :
  MVTPmtilesProvider.__init__ (Sample.world [] (Return 404%Z) Sample.unreachable)
    (Sample.fresh Sample.tiles_url)
  = (Return (),
     {| self := {| data := Sample.tiles_url;
                   _service_url := Url "http://localhost:8000/ne/tiles/{tileMatrixSetId}/{tileMatrix}/{tileRow}/{tileCol}?f=mvt";
                   _service_metadata_url := Url "http://localhost:8000//ne.json" |};
        clock := 1;
        log := [(DEBUG, "Extracting layer name from URL"); (DEBUG, "Layer: /ne");
                (ERROR, "Service metadata does not exist: http://localhost:8000//ne.json");
                (WARNING, "Service metadata does not exist: http://localhost:8000//ne.json")] |}).
Proof. vm_compute. reflexivity. Qed.

(** * Properties *)

(** ** Construction from a URL *)

(** C1 (the code departs from the claim): on a URL configuration, whatever
    status the HEAD request answers, the constructor returns normally and
    stores one and the same metadata location.  That location, however, is
    scheme and host followed by TWO slashes, the layer name and [.json]:
    the local [layer] already starts with a slash when it is pasted after
    the slash of the template.  It is therefore never the text
    [<baseurl>/<layer>.json] with a single slash. *)
Theorem init_url_metadata_location_double_slash
    (w : World) (s : State) (status_code : Z) :
  is_url w (data (self s)) = true →
  requests_head w (clock s) (metadata_json w (data (self s)))
    = Return status_code →
  let url := urlparse w (data (self s)) in
  let baseurl := scheme url ++ "://" ++ netloc url in
  let layer := get_layer w (data (self s)) in
  let built := (MVTPmtilesProvider.__init__ w s).2 in
  (MVTPmtilesProvider.__init__ w s).1 = Return ()
  ∧ _service_metadata_url (self built) = Url (baseurl ++ "//" ++ layer ++ ".json")
  ∧ _service_metadata_url (self built) ≠ Url (baseurl ++ "/" ++ layer ++ ".json").
Proof.
  intros Hurl Hhead url baseurl layer built. subst built.
  rewrite (init_url_response w s status_code Hurl Hhead). simpl.
  split; [reflexivity |]. split; [reflexivity |].
  intros H. injection H as H. revert H. apply double_slash_differs.
Qed.

Lemma init_url_metadata_location_double_slash_witness :
  let w := Sample.world [] (Return 404%Z) Sample.unreachable in
  let s := Sample.fresh Sample.tiles_url in
  (MVTPmtilesProvider.__init__ w s).1 = Return ()
  ∧ _service_metadata_url (self (MVTPmtilesProvider.__init__ w s).2)
    = Url "http://localhost:8000//ne.json"
  ∧ _service_metadata_url (self (MVTPmtilesProvider.__init__ w s).2)
    ≠ Url "http://localhost:8000/ne.json".
Proof.
  intros w s.
  apply (init_url_metadata_location_double_slash w s 404%Z);
    reflexivity.
Defined.

(** C9: on a URL configuration, an exception raised by the HEAD request
    itself leaves the constructor as it is; only when a response arrives
    does the constructor return, and then it logs the error and the warning
    exactly when the status is not 200. *)
Theorem init_head_failure_propagates (w : World) (s : State) :
  is_url w (data (self s)) = true →
  let metadata_path := metadata_json w (data (self s)) in
  let msg := "Service metadata does not exist: " ++ metadata_path in
  let debug := [(DEBUG, "Extracting layer name from URL");
                (DEBUG, "Layer: /" ++ get_layer w (data (self s)))] in
  (∀ e, requests_head w (clock s) metadata_path = Raise e →
        (MVTPmtilesProvider.__init__ w s).1 = Raise e)
  ∧ (∀ status_code,
        requests_head w (clock s) metadata_path = Return status_code →
        (MVTPmtilesProvider.__init__ w s).1 = Return ()
        ∧ log (MVTPmtilesProvider.__init__ w s).2
          = (log s ++ debug
               ++ (if (status_code =? 200)%Z then []
                   else [(ERROR, msg); (WARNING, msg)]))%list).
Proof.
  intros Hurl metadata_path msg debug. split.
  - intros e Hhead. by apply init_url_head_raises.
  - intros status_code Hhead.
    rewrite (init_url_response w s status_code Hurl Hhead). simpl.
    split; reflexivity.
Qed.

Lemma init_head_failure_propagates_witness :
  let w := Sample.world [] (Raise (ForeignError "ConnectionError" "refused"))
             Sample.unreachable in
  is_url w Sample.tiles_url = true
  ∧ (MVTPmtilesProvider.__init__ w (Sample.fresh Sample.tiles_url)).1
    = Raise (ForeignError "ConnectionError" "refused").
Proof.
  intros w. split; [reflexivity |].
  apply (init_head_failure_propagates w (Sample.fresh Sample.tiles_url));
    reflexivity.
Defined.

(** ** Construction from a local path *)

(** C4: on a local-path configuration whose path does not exist, the
    constructor raises a connection error naming the configured path, and
    has assigned nothing to the instance. *)
Theorem init_missing_path_raises (w : World) (s : State) :
  is_url w (data (self s)) = false →
  path_exists w (clock s) (Path w (data (self s))) = false →
  (MVTPmtilesProvider.__init__ w s).1
  = Raise (ProviderConnectionError
             ("Service does not exist: " ++ data (self s)))
  ∧ self (MVTPmtilesProvider.__init__ w s).2 = self s.
Proof.
  intros Hurl Hdir. rewrite (init_local_missing w s Hurl Hdir). done.
Qed.

Lemma init_missing_path_raises_witness :
  let w := Sample.world [] (Return 200%Z) Sample.unreachable in
  is_url w "/srv/tiles/ne" = false
  ∧ path_exists w 0 (Path w "/srv/tiles/ne") = false
  ∧ (MVTPmtilesProvider.__init__ w (Sample.fresh "/srv/tiles/ne")).1
    = Raise (ProviderConnectionError "Service does not exist: /srv/tiles/ne").
Proof.
  intros w. split; [reflexivity |]. split; [reflexivity |].
  apply (init_missing_path_raises w (Sample.fresh "/srv/tiles/ne"));
    reflexivity.
Defined.

(** C5: with the descriptor fetch the spec describes, on a local-path
    configuration whose directory exists and has no [metadata] file, the
    constructor returns normally, having only logged the missing file; and
    as long as the file stays missing, every later call of the vendor
    renderer, wherever it stands among the calls made on the instance,
    raises a connection error whose message carries the path of the missing
    file. *)
Theorem init_missing_metadata_file_then_vendor_raises
    (w : World) (served stored : nat → string → option (gmap string value))
    (s : State) :
  let w' := with_fetch w (fetch_descriptor w served stored) in
  is_url w (data (self s)) = false →
  path_exists w (clock s) (Path w (data (self s))) = true →
  (∀ t, path_exists w t (metadata_file w (data (self s))) = false) →
  let metadata_path := metadata_file w (data (self s)) in
  let msg := "Service metadata does not exist: " ++ path_name w metadata_path in
  let built := (MVTPmtilesProvider.__init__ w' s).2 in
  (MVTPmtilesProvider.__init__ w' s).1 = Return ()
  ∧ _service_metadata_url (self built) = PosixPath metadata_path
  ∧ log built = (log s ++ [(ERROR, msg); (WARNING, msg)])%list
  ∧ ∀ cs i ds su la ts ti de ke kw,
      cs !! i = Some (vendor ds su la ts ti de ke kw) →
      (run w' cs built).1 !! i
      = Some (Raise (ProviderConnectionError
                       ("No tiles metadata json available: " ++ metadata_path))).
Proof.
  intros w' Hurl Hdir Hfile metadata_path msg built. subst built.
  change (MVTPmtilesProvider.__init__ w' s)
    with (MVTPmtilesProvider.__init__ w s).
  rewrite (init_local_present w s Hurl Hdir), Hfile. simpl.
  split; [reflexivity |]. split; [reflexivity |]. split; [reflexivity |].
  intros cs i ds su la ts ti de ke kw Hcall.
  rewrite (run_lookup w' cs _ i _ Hcall). simpl.
  unfold metadata_file in Hfile. by rewrite Hfile.
Qed.

Lemma init_missing_metadata_file_then_vendor_raises_witness :
  let w := with_fetch
             (Sample.world ["/srv/tiles/ne"] (Return 200%Z) Sample.unreachable)
             (fetch_descriptor
                (Sample.world ["/srv/tiles/ne"] (Return 200%Z)
                   Sample.unreachable)
                (λ _ _, Some Sample.roads) (λ _ _, Some Sample.roads)) in
  let s := Sample.fresh "/srv/tiles/ne" in
  (MVTPmtilesProvider.__init__ w s).1 = Return ()
  ∧ log (MVTPmtilesProvider.__init__ w s).2
    = [(ERROR, "Service metadata does not exist: metadata");
       (WARNING, "Service metadata does not exist: metadata")]
  ∧ (run w [html "ne" "http://localhost:5000" "ne" "WebMercatorQuad"
              (VStr "Natural Earth") VNone (VList []) ∅;
            vendor "ne" "http://localhost:5000" "ne" "WebMercatorQuad"
              (VStr "Natural Earth") VNone (VList []) ∅]
       (MVTPmtilesProvider.__init__ w s).2).1 !! 1
    = Some (Raise (ProviderConnectionError
             "No tiles metadata json available: /srv/tiles/ne/metadata")).
Proof.
  intros w s.
  destruct (init_missing_metadata_file_then_vendor_raises
              (Sample.world ["/srv/tiles/ne"] (Return 200%Z) Sample.unreachable)
              (λ _ _, Some Sample.roads) (λ _ _, Some Sample.roads) s
              eq_refl eq_refl (λ _, eq_refl))
    as (Hret & _ & Hlog & Hcalls).
  split; [exact Hret |]. split; [exact Hlog |].
  eapply Hcalls. reflexivity.
Defined.

(** ** Dictionaries *)

Lemma envelope_dom (w : World) (ds su ts : string) (ti : value) :
  dom (envelope w ds su ts ti)
  = ({["id"; "title"; "tileset"; "collections_path"; "json_url"]} : gset string).
Proof.
  unfold envelope. rewrite !dom_insert_L, dom_empty_L. set_solver.
Qed.

(** ** The HTML view *)

(** C2: [get_html_metadata] never raises a connection error; when the
    descriptor fetch fails with one, it returns a dictionary whose keys are
    exactly id, title, tileset, collections_path and json_url, so neither
    metadata nor tilejson_url is among them. *)
Theorem get_html_metadata_swallows_connection_error
    (w : World) (ds su la ts : string) (ti de ke : value)
    (kw : gmap string value) (s : State) :
  (∀ msg, (MVTPmtilesProvider.get_html_metadata w ds su la ts ti de ke kw s).1
          ≠ Raise (ProviderConnectionError msg))
  ∧ (∀ msg,
       get_metadata_from_URL w (clock s) (_service_metadata_url (self s))
         = Raise (ProviderConnectionError msg) →
       ∃ metadata : gmap string value,
         (MVTPmtilesProvider.get_html_metadata w ds su la ts ti de ke kw s).1
           = Return metadata
         ∧ dom metadata
           = ({["id"; "title"; "tileset"; "collections_path"; "json_url"]}
                : gset string)
         ∧ metadata !! "metadata" = None
         ∧ metadata !! "tilejson_url" = None).
Proof.
  rewrite get_html_metadata_eq. simpl. split.
  - intros msg. unfold html_view.
    destruct (get_metadata_from_URL w (clock s) _) as [doc|e].
    + destruct (doc !! "vector_layers"); discriminate.
    + destruct e; discriminate.
  - intros msg ->. simpl. eexists. split; [reflexivity |].
    split; [apply envelope_dom |].
    split; reflexivity.
Qed.

Lemma get_html_metadata_swallows_connection_error_witness :
  let w := Sample.world [] (Return 404%Z) Sample.unreachable in
  let s := (MVTPmtilesProvider.__init__ w (Sample.fresh Sample.tiles_url)).2 in
  ∃ metadata : gmap string value,
    (MVTPmtilesProvider.get_html_metadata w "ne" "http://localhost:5000" "ne"
       "WebMercatorQuad" (VStr "Natural Earth") VNone (VList []) ∅ s).1
      = Return metadata
    ∧ dom metadata
      = ({["id"; "title"; "tileset"; "collections_path"; "json_url"]}
           : gset string)
    ∧ metadata !! "metadata" = None
    ∧ metadata !! "tilejson_url" = None.
Proof.
  intros w s.
  apply (get_html_metadata_swallows_connection_error w "ne"
           "http://localhost:5000" "ne" "WebMercatorQuad"
           (VStr "Natural Earth") VNone (VList []) ∅ s)
    with (msg := "unreachable").
  reflexivity.
Defined.

(** C3: when the fetched document has no vector_layers key, both renderers
    end with the [KeyError] of the failed lookup: it is not a connection
    error, so [get_html_metadata] does not swallow it and
    [get_vendor_metadata] does not rewrap it. *)
Theorem missing_vector_layers_is_key_error
    (w : World) (ds su la ts : string) (ti de ke : value)
    (kw : gmap string value) (s : State) (doc : gmap string value) :
  get_metadata_from_URL w (clock s) (_service_metadata_url (self s))
    = Return doc →
  doc !! "vector_layers" = None →
  (MVTPmtilesProvider.get_html_metadata w ds su la ts ti de ke kw s).1
    = Raise (KeyError "vector_layers")
  ∧ (MVTPmtilesProvider.get_vendor_metadata w ds su la ts ti de ke kw s).1
    = Raise (KeyError "vector_layers").
Proof.
  intros Hfetch Hvl.
  rewrite get_html_metadata_eq, get_vendor_metadata_eq. simpl.
  rewrite Hfetch. simpl. rewrite Hvl. done.
Qed.

Lemma missing_vector_layers_is_key_error_witness :
  let w := Sample.world [] (Return 200%Z)
             (λ _, Return (<["name" := VStr "ne"]> ∅)) in
  let s := (MVTPmtilesProvider.__init__ w (Sample.fresh Sample.tiles_url)).2 in
  (MVTPmtilesProvider.get_html_metadata w "ne" "http://localhost:5000" "ne"
     "WebMercatorQuad" (VStr "Natural Earth") VNone (VList []) ∅ s).1
    = Raise (KeyError "vector_layers")
  ∧ (MVTPmtilesProvider.get_vendor_metadata w "ne" "http://localhost:5000" "ne"
       "WebMercatorQuad" (VStr "Natural Earth") VNone (VList []) ∅ s).1
    = Raise (KeyError "vector_layers").
Proof.
  intros w s.
  apply (missing_vector_layers_is_key_error w "ne" "http://localhost:5000"
           "ne" "WebMercatorQuad" (VStr "Natural Earth") VNone (VList []) ∅ s
           (<["name" := VStr "ne"]> ∅));
    reflexivity.
Defined.

(** C6: on the document with minzoom 0, maxzoom 14 and one vector layer
    named roads, [get_html_metadata] returns, and the object under its
    metadata key has that minzoom, that maxzoom and those vector layers.
    In general, for a document that has vector_layers, each of the seven
    optional fields of that object holds the document's value when the
    document has the key and the default of a fresh [MVTTilesJson]
    otherwise. *)
Theorem get_html_metadata_optional_fields
    (w : World) (ds su la ts : string) (ti de ke : value)
    (kw : gmap string value) (s : State) :
  (get_metadata_from_URL w (clock s) (_service_metadata_url (self s))
     = Return Sample.roads →
   ∃ metadata content : gmap string value,
     (MVTPmtilesProvider.get_html_metadata w ds su la ts ti de ke kw s).1
       = Return metadata
     ∧ metadata !! "metadata" = Some (VDict content)
     ∧ content !! "minzoom" = Some (VInt 0)
     ∧ content !! "maxzoom" = Some (VInt 14)
     ∧ content !! "vector_layers"
       = Some (VList [VDict {["id" := VStr "roads"]}]))
  ∧ (∀ (doc : gmap string value) (vl : value),
       get_metadata_from_URL w (clock s) (_service_metadata_url (self s))
         = Return doc →
       doc !! "vector_layers" = Some vl →
       let new := MVTTilesJson_new w in
       ∃ metadata content : gmap string value,
         (MVTPmtilesProvider.get_html_metadata w ds su la ts ti de ke kw s).1
           = Return metadata
         ∧ metadata !! "metadata" = Some (VDict content)
         ∧ content !! "name" = Some (default (name new) (doc !! "name"))
         ∧ content !! "description"
           = Some (default (description new) (doc !! "description"))
         ∧ content !! "attribution"
           = Some (default (attribution new) (doc !! "attribution"))
         ∧ content !! "bounds" = Some (default (bounds new) (doc !! "bounds"))
         ∧ content !! "center" = Some (default (center new) (doc !! "center"))
         ∧ content !! "minzoom"
           = Some (default (minzoom new) (doc !! "minzoom"))
         ∧ content !! "maxzoom"
           = Some (default (maxzoom new) (doc !! "maxzoom"))
         ∧ content !! "vector_layers" = Some vl).
Proof.
  rewrite get_html_metadata_eq. simpl. split.
  - intros ->. simpl. do 2 eexists.
    split; [reflexivity |]. split; [reflexivity |]. repeat split.
  - intros doc vl -> Hvl. simpl. rewrite Hvl. do 2 eexists.
    split; [reflexivity |]. split; [reflexivity |]. repeat split.
Qed.

Lemma get_html_metadata_optional_fields_witness :
  let w := Sample.world [] (Return 200%Z) (λ _, Return Sample.roads) in
  let s := (MVTPmtilesProvider.__init__ w (Sample.fresh Sample.tiles_url)).2 in
  ∃ metadata content : gmap string value,
    (MVTPmtilesProvider.get_html_metadata w "ne" "http://localhost:5000" "ne"
       "WebMercatorQuad" (VStr "Natural Earth") VNone (VList []) ∅ s).1
      = Return metadata
    ∧ metadata !! "metadata" = Some (VDict content)
    ∧ content !! "minzoom" = Some (VInt 0)
    ∧ content !! "maxzoom" = Some (VInt 14)
    ∧ content !! "vector_layers"
      = Some (VList [VDict {["id" := VStr "roads"]}]).
Proof.
  intros w s.
  apply (get_html_metadata_optional_fields w "ne" "http://localhost:5000"
           "ne" "WebMercatorQuad" (VStr "Natural Earth") VNone (VList []) ∅ s).
  reflexivity.
Defined.

(** ** The vendor view *)




(** ** Repeated calls *)

Lemma run_length (w : World) (cs : list call) (s : State) :
  length (run w cs s).1 = length cs.
Proof.
  revert s. induction cs as [|c cs IH]; intros s; [done |].
  rewrite run_cons. simpl. by rewrite IH.
Qed.

Lemma outcome_with_fetch (w : World) f (p : Provider) (c : call) fetched :
  outcome (with_fetch w f) p c fetched = outcome w p c fetched.
Proof. destruct c; reflexivity. Qed.

(** C8: whatever calls of the two renderers are made on an instance, in
    whatever order, the instance (and so its service_url and
    service_metadata_url) is the same afterwards; every call performs one
    fetch of its own, so the world's clock advances once per call; the
    outcome of the i-th call is decided by the answer to its own fetch, not
    by the answers the earlier or later fetches got; and when the location
    answers every fetch with a connection error, every vendor call
    raises. *)
Theorem render_calls_frame_and_refetch (w : World) (cs : list call) (s : State) :
  let location := _service_metadata_url (self s) in
  self (run w cs s).2 = self s
  ∧ _service_url (self (run w cs s).2) = _service_url (self s)
  ∧ _service_metadata_url (self (run w cs s).2) = location
  ∧ clock (run w cs s).2 = clock s + length cs
  ∧ (∀ f1 f2 i,
       f1 (clock s + i) location = f2 (clock s + i) location →
       (run (with_fetch w f1) cs s).1 !! i
       = (run (with_fetch w f2) cs s).1 !! i)
  ∧ ((∀ t, ∃ m, get_metadata_from_URL w t location
                = Raise (ProviderConnectionError m)) →
     ∀ i ds su la ts ti de ke kw,
       cs !! i = Some (vendor ds su la ts ti de ke kw) →
       (run w cs s).1 !! i
       = Some (Raise (ProviderConnectionError
                        ("No tiles metadata json available: " ++ str location)))).
Proof.
  intros location. rewrite run_self, run_clock.
  do 4 (split; [reflexivity |]). split.
  - intros f1 f2 i Hsame.
    destruct (cs !! i) as [c|] eqn:Hc.
    + rewrite !(run_lookup _ cs s i c Hc), !outcome_with_fetch. simpl.
      fold location. by rewrite Hsame.
    + apply lookup_ge_None in Hc.
      transitivity (@None (result (gmap string value)));
        [| symmetry]; apply lookup_ge_None; by rewrite run_length.
  - intros Hdown i ds su la ts ti de ke kw Hc.
    rewrite (run_lookup w cs s i _ Hc). simpl. fold location.
    destruct (Hdown (clock s + i)) as [m ->]. reflexivity.
Qed.

Lemma render_calls_frame_and_refetch_witness :
  let w := Sample.world [] (Return 404%Z) Sample.unreachable in
  let s := (MVTPmtilesProvider.__init__ w (Sample.fresh Sample.tiles_url)).2 in
  let v := vendor "ne" "http://localhost:5000" "ne" "WebMercatorQuad"
             (VStr "Natural Earth") VNone (VList []) ∅ in
  self (run w [v; v; v] s).2 = self s
  ∧ (run w [v; v; v] s).1
    = replicate 3 (Raise (ProviderConnectionError
        "No tiles metadata json available: http://localhost:8000//ne.json")).
Proof.
  intros w s v.
  destruct (render_calls_frame_and_refetch w [v; v; v] s)
    as (Hself & _ & _ & _ & _ & Hdown).
  split; [exact Hself |].
  assert (Hfetch : ∀ t, ∃ m,
            get_metadata_from_URL w t (_service_metadata_url (self s))
            = Raise (ProviderConnectionError m)) by (intros t; by eexists).
  apply list_eq. intros [|[|[|i]]];
    [eapply (Hdown Hfetch); reflexivity .. | reflexivity].
Defined.

(** C10: [get_vendor_metadata] gives the same outcome, and leaves the same
    state, whatever its layer, title, description, keywords and extra
    keyword arguments are; [get_html_metadata] does so whatever its layer,
    description, keywords and extra keyword arguments are. *)
Theorem render_ignores_unused_arguments
    (w : World) (s : State) (ds su ts : string)
    (la1 la2 : string) (ti1 ti2 de1 de2 ke1 ke2 : value)
    (kw1 kw2 : gmap string value) :
  MVTPmtilesProvider.get_vendor_metadata w ds su la1 ts ti1 de1 ke1 kw1 s
  = MVTPmtilesProvider.get_vendor_metadata w ds su la2 ts ti2 de2 ke2 kw2 s
  ∧ MVTPmtilesProvider.get_html_metadata w ds su la1 ts ti1 de1 ke1 kw1 s
    = MVTPmtilesProvider.get_html_metadata w ds su la2 ts ti1 de2 ke2 kw2 s.
Proof.
  split.
  - by rewrite !get_vendor_metadata_eq.
  - by rewrite !get_html_metadata_eq.
Qed.

(** * Further properties *)

Set Warnings "-clear-no-such-hyp".

(** ** The constructor, case by case *)

Lemma init_url_eq (w : World) (s : State) :
  is_url w (data (self s)) = true →
  MVTPmtilesProvider.__init__ w s
  = match requests_head w (clock s) (metadata_json w (data (self s))) with
    | Raise e => (Raise e, tick (before_head w s))
    | Return status_code =>
        (Return (),
         {| self := {| data := data (self s);
                       _service_url := Url (service_template w (data (self s)));
                       _service_metadata_url :=
                         Url (metadata_json w (data (self s))) |};
            clock := S (clock s);
            log := log s
                   ++ [(DEBUG, "Extracting layer name from URL");
                       (DEBUG, "Layer: " ++ "/" ++ get_layer w (data (self s)))]
                   ++ head_log w (data (self s)) status_code |})
    end.
Proof.
  intros Hurl.
  destruct (requests_head w (clock s) _) as [status_code|e] eqn:Hhead.
  - by apply init_url_response.
  - unfold MVTPmtilesProvider.__init__, mbind, M_bind, self_data.
    rewrite Hurl. cbn -[String.append Z.eqb].
    unfold metadata_json in Hhead. rewrite Hhead.
    unfold before_head, tick, metadata_interim, service_template.
    cbn -[String.append split_0]. do 2 f_equal.
    rewrite <- app_assoc. reflexivity.
Qed.

Lemma init_local_eq (w : World) (s : State) :
  is_url w (data (self s)) = false →
  MVTPmtilesProvider.__init__ w s
  = if path_exists w (clock s) (Path w (data (self s))) then
      (Return (),
       {| self := {| data := data (self s);
                     _service_url := PosixPath (Path w (data (self s)));
                     _service_metadata_url :=
                       PosixPath (metadata_file w (data (self s))) |};
          clock := S (S (clock s));
          log := log s
                 ++ metadata_file_log w (data (self s))
                      (path_exists w (S (clock s))
                         (metadata_file w (data (self s)))) |})
    else
      (Raise (ProviderConnectionError
                ("Service does not exist: " ++ data (self s))),
       {| self := self s; clock := S (clock s);
          log := log s
                 ++ [(ERROR, "Service does not exist: " ++ data (self s))] |}).
Proof.
  intros Hurl.
  destruct (path_exists w (clock s) _) eqn:Hdir.
  - by apply init_local_present.
  - by apply init_local_missing.
Qed.

Lemma app_eq_self_nil {A : Type} (l k : list A) : (l ++ k)%list = l → k = [].
Proof.
  intros H. apply (f_equal length) in H. rewrite length_app in H.
  destruct k; [done | simpl in H; lia].
Qed.

(** X1: of the steps the constructor takes after [super().__init__], with
    [get_layer], [urlparse], [url_join] and the [pathlib] calls returning,
    two and only two make it raise.  It raises [e] if and only if either the
    configuration is a URL and the HEAD request itself raised [e], or the
    configuration is a local path that does not exist and [e] is the
    connection error naming it.  The status of the HEAD answer, a missing
    metadata file and the [split] on [service_url] never do. *)
Theorem init_raise_cases (w : World) (s : State) (e : exn) :
  (MVTPmtilesProvider.__init__ w s).1 = Raise e
  ↔ (is_url w (data (self s)) = true
     ∧ requests_head w (clock s) (metadata_json w (data (self s))) = Raise e)
    ∨ (is_url w (data (self s)) = false
       ∧ path_exists w (clock s) (Path w (data (self s))) = false
       ∧ e = ProviderConnectionError
               ("Service does not exist: " ++ data (self s))).
Proof.
  destruct (is_url w (data (self s))) eqn:Hurl.
  - rewrite (init_url_eq w s Hurl).
    destruct (requests_head w (clock s) _) as [c|e']; simpl.
    + split; [discriminate |]. intros [[_ H]|[H _]]; discriminate.
    + split.
      * intros H. left. split; [done |]. by injection H as <-.
      * intros [[_ H]|[H _]]; [by injection H as <- | discriminate].
  - rewrite (init_local_eq w s Hurl).
    destruct (path_exists w (clock s) _); simpl.
    + split; [discriminate |]. intros [[H _]|(_ & H & _)]; discriminate.
    + split.
      * intros H. right. injection H as <-. done.
      * intros [[H _]|(_ & _ & ->)]; [discriminate | reflexivity].
Qed.

Lemma init_raise_cases_witness :
  let w := Sample.world [] (Return 200%Z) Sample.unreachable in
  let s := Sample.fresh "/srv/tiles/ne" in
  (MVTPmtilesProvider.__init__ w s).1
  = Raise (ProviderConnectionError "Service does not exist: /srv/tiles/ne").
Proof.
  intros w s. apply (init_raise_cases w s). right. repeat split.
Defined.

(** X2: what the constructor answers and, when it returns, what it leaves
    in the instance depend on the configured data only: whatever the parent
    constructor had put in [_service_url] and [_service_metadata_url], and
    whatever was logged before, is overwritten or ignored. *)
Theorem init_overwrites_fields (w : World) (s1 s2 : State) :
  data (self s1) = data (self s2) →
  clock s1 = clock s2 →
  (MVTPmtilesProvider.__init__ w s1).1 = (MVTPmtilesProvider.__init__ w s2).1
  ∧ ((MVTPmtilesProvider.__init__ w s1).1 = Return () →
     self (MVTPmtilesProvider.__init__ w s1).2
     = self (MVTPmtilesProvider.__init__ w s2).2).
Proof.
  intros Hdata Hclock.
  destruct (is_url w (data (self s1))) eqn:Hurl.
  - rewrite (init_url_eq w s1 Hurl).
    rewrite Hdata in Hurl. rewrite (init_url_eq w s2 Hurl).
    rewrite Hdata, Hclock.
    destruct (requests_head w (clock s2) _); simpl; done.
  - rewrite (init_local_eq w s1 Hurl).
    rewrite Hdata in Hurl. rewrite (init_local_eq w s2 Hurl).
    rewrite Hdata, Hclock.
    destruct (path_exists w (clock s2) _); simpl; done.
Qed.

Lemma init_overwrites_fields_witness :
  let w := Sample.world ["/srv/tiles/ne"] (Return 200%Z) Sample.unreachable in
  let s1 := Sample.fresh "/srv/tiles/ne" in
  let s2 := {| self := {| data := "/srv/tiles/ne";
                          _service_url := Url "http://old/{z}/{x}/{y}";
                          _service_metadata_url := PosixPath "/old/metadata.json" |};
               clock := 0; log := [(DEBUG, "parent")] |} in
  self (MVTPmtilesProvider.__init__ w s1).2
  = self (MVTPmtilesProvider.__init__ w s2).2.
Proof.
  intros w s1 s2.
  apply (init_overwrites_fields w s1 s2); reflexivity.
Defined.

(** X3: the URL branch never looks at the file system, the local branch
    never sends a HEAD request, and neither fetches the descriptor: the
    constructor answers the same and leaves the same state when those parts
    of the world are replaced by any others. *)
Theorem init_branch_isolation (w : World) (s : State) :
  (is_url w (data (self s)) = true →
   ∀ ex, MVTPmtilesProvider.__init__ (with_exists w ex) s
         = MVTPmtilesProvider.__init__ w s)
  ∧ (is_url w (data (self s)) = false →
     ∀ h, MVTPmtilesProvider.__init__ (with_head w h) s
          = MVTPmtilesProvider.__init__ w s)
  ∧ (∀ f, MVTPmtilesProvider.__init__ (with_fetch w f) s
          = MVTPmtilesProvider.__init__ w s).
Proof.
  split; [| split].
  - intros Hurl ex.
    by rewrite (init_url_eq (with_exists w ex) s Hurl), (init_url_eq w s Hurl).
  - intros Hurl h.
    by rewrite (init_local_eq (with_head w h) s Hurl), (init_local_eq w s Hurl).
  - intros f. reflexivity.
Qed.

Lemma init_branch_isolation_witness :
  let w := Sample.world [] (Return 404%Z) Sample.unreachable in
  let s := Sample.fresh Sample.tiles_url in
  MVTPmtilesProvider.__init__ (with_exists w (λ _ _, true)) s
  = MVTPmtilesProvider.__init__ w s.
Proof.
  intros w s.
  apply (proj1 (init_branch_isolation w s)). reflexivity.
Defined.

(** X4: after [super().__init__], and with [get_layer] returning, the
    rest of the constructor makes one call of its own to the outside world
    on a URL configuration (the HEAD request of line 88, answered or not),
    one on a missing local path (the metadata file is not probed) and two on
    an existing one.  The calls the parent constructor makes are not
    counted. *)
Theorem init_external_calls (w : World) (s : State) :
  clock (MVTPmtilesProvider.__init__ w s).2
  = clock s
    + (if is_url w (data (self s)) then 1
       else if path_exists w (clock s) (Path w (data (self s))) then 2
            else 1).
Proof.
  destruct (is_url w (data (self s))) eqn:Hurl.
  - rewrite (init_url_eq w s Hurl).
    destruct (requests_head w (clock s) _); simpl; lia.
  - rewrite (init_local_eq w s Hurl).
    destruct (path_exists w (clock s) _); simpl; lia.
Qed.

(** X5: on a local path that exists the constructor always returns,
    whether the metadata file is there or not; it stores the path as the
    service location and the path joined with [metadata] as the metadata
    location, keeps [data], and leaves the log untouched exactly when the
    metadata file exists. *)
Theorem init_local_present_returns (w : World) (s : State) :
  is_url w (data (self s)) = false →
  path_exists w (clock s) (Path w (data (self s))) = true →
  let built := (MVTPmtilesProvider.__init__ w s).2 in
  let metadata_path := joinpath w (Path w (data (self s))) "metadata" in
  (MVTPmtilesProvider.__init__ w s).1 = Return ()
  ∧ data (self built) = data (self s)
  ∧ _service_url (self built) = PosixPath (Path w (data (self s)))
  ∧ _service_metadata_url (self built) = PosixPath metadata_path
  ∧ (path_exists w (S (clock s)) metadata_path = true ↔ log built = log s).
Proof.
  intros Hurl Hdir built metadata_path. subst built.
  rewrite (init_local_present w s Hurl Hdir). simpl.
  do 4 (split; [reflexivity |]).
  unfold metadata_file_log, metadata_file. fold metadata_path.
  destruct (path_exists w (S (clock s)) metadata_path).
  - by rewrite app_nil_r.
  - split; [discriminate |]. intros H.
    apply app_eq_self_nil in H. discriminate H.
Qed.

Lemma init_local_present_returns_witness :
  let w := Sample.world ["/srv/tiles/ne"; "/srv/tiles/ne/metadata"]
             (Return 200%Z) Sample.unreachable in
  let s := Sample.fresh "/srv/tiles/ne" in
  (MVTPmtilesProvider.__init__ w s).1 = Return ()
  ∧ _service_metadata_url (self (MVTPmtilesProvider.__init__ w s).2)
    = PosixPath "/srv/tiles/ne/metadata"
  ∧ log (MVTPmtilesProvider.__init__ w s).2 = [].
Proof.
  intros w s.
  destruct (init_local_present_returns w s eq_refl eq_refl)
    as (Hret & _ & _ & Hloc & Hlog).
  split; [exact Hret |]. split; [exact Hloc |].
  apply Hlog. reflexivity.
Defined.

Lemma append_assoc (a b c : string) : (a ++ b) ++ c = a ++ b ++ c.
Proof.
  induction a as [|x a IH]; [reflexivity |].
  exact (f_equal (String x) IH).
Qed.

(** X6: on a URL configuration, whatever the HEAD request does (any
    status, or an exception), the constructor has by then stored the tile
    template: the join of scheme and host with
    [/<layer>/tiles/{tileMatrixSetId}/{tileMatrix}/{tileRow}/{tileCol}?f=mvt];
    [data] is kept. *)
Theorem init_url_service_url (w : World) (s : State) :
  is_url w (data (self s)) = true →
  let url := urlparse w (data (self s)) in
  let built := (MVTPmtilesProvider.__init__ w s).2 in
  _service_url (self built)
  = Url (url_join w (scheme url ++ "://" ++ netloc url)
           ("/" ++ get_layer w (data (self s))
              ++ "/tiles/{tileMatrixSetId}/{tileMatrix}/{tileRow}/{tileCol}?f=mvt"))
  ∧ data (self built) = data (self s).
Proof.
  intros Hurl url built. subst built url.
  rewrite (init_url_eq w s Hurl).
  assert (Htemplate :
    service_template w (data (self s))
    = url_join w
        (scheme (urlparse w (data (self s))) ++ "://"
           ++ netloc (urlparse w (data (self s))))
        ("/" ++ get_layer w (data (self s))
           ++ "/tiles/{tileMatrixSetId}/{tileMatrix}/{tileRow}/{tileCol}?f=mvt")).
  { unfold service_template. f_equal. by rewrite !append_assoc. }
  destruct (requests_head w (clock s) _); simpl; by rewrite Htemplate.
Qed.

Lemma init_url_service_url_witness :
  let w := Sample.world [] (Raise (ForeignError "ConnectionError" "refused"))
             Sample.unreachable in
  let s := Sample.fresh Sample.tiles_url in
  _service_url (self (MVTPmtilesProvider.__init__ w s).2)
  = Url "http://localhost:8000/ne/tiles/{tileMatrixSetId}/{tileMatrix}/{tileRow}/{tileCol}?f=mvt".
Proof.
  intros w s.
  apply (proj1 (init_url_service_url w s eq_refl)).
Defined.

Lemma split_0_nil (sep : string) : split_0 sep "" = "".
Proof. by destruct sep. Qed.

Lemma split_0_cons (sep : string) (c : ascii) (s : string) :
  split_0 sep (String c s)
  = if String.prefix sep (String c s) then ""
    else String c (split_0 sep s).
Proof. reflexivity. Qed.

Lemma append_nil_inv (a b : string) : "" = a ++ b → b = "".
Proof.
  destruct a; [| discriminate]. intros H. symmetry. exact H.
Qed.

(** [split_0] cuts at the first occurrence of the separator. *)
Lemma split_0_first (sep s : string) :
  ∃ rest,
    s = split_0 sep s ++ rest
    ∧ (rest = "" ∨ String.prefix sep rest = true)
    ∧ ∀ a b, split_0 sep s = a ++ b → b ≠ "" →
             String.prefix sep (b ++ rest) = false.
Proof.
  induction s as [|c s IH].
  - exists "". rewrite split_0_nil.
    split; [reflexivity |]. split; [by left |].
    intros a b Hab Hb. by apply append_nil_inv in Hab.
  - rewrite split_0_cons.
    destruct (String.prefix sep (String c s)) eqn:Hp.
    + exists (String c s).
      split; [reflexivity |]. split; [by right |].
      intros a b Hab Hb. by apply append_nil_inv in Hab.
    + destruct IH as (rest & Hs & Hrest & Hfirst).
      exists rest.
      split; [exact (f_equal (String c) Hs) |]. split; [exact Hrest |].
      intros a b Hab Hb. destruct a as [|x a].
      * change (String c (split_0 sep s) = b) in Hab. subst b.
        change (String.prefix sep (String c (split_0 sep s ++ rest)) = false).
        by rewrite <- Hs.
      * change (String c (split_0 sep s) = String x (a ++ b)) in Hab.
        injection Hab as -> Hab. by apply (Hfirst a b).
Qed.

(** X7: when the HEAD request raises on a URL configuration, the instance
    the constructor abandons holds the first metadata location it computed:
    the join of [metadata] with the part of the tile template that stands
    before the first [{tileMatrix}/{tileRow}/{tileCol}] (all of the template
    when the join left no such placeholder in it). *)
Theorem init_url_head_raises_leaves_interim (w : World) (s : State) (e : exn) :
  is_url w (data (self s)) = true →
  requests_head w (clock s) (metadata_json w (data (self s))) = Raise e →
  let sep := "{tileMatrix}/{tileRow}/{tileCol}" in
  let template := service_template w (data (self s)) in
  ∃ before rest,
    template = before ++ rest
    ∧ (rest = "" ∨ String.prefix sep rest = true)
    ∧ (∀ a b, before = a ++ b → b ≠ "" →
              String.prefix sep (b ++ rest) = false)
    ∧ self (MVTPmtilesProvider.__init__ w s).2
      = {| data := data (self s);
           _service_url := Url template;
           _service_metadata_url := Url (url_join w before "metadata") |}.
Proof.
  intros Hurl Hhead sep template.
  rewrite (init_url_eq w s Hurl), Hhead. simpl.
  destruct (split_0_first sep template) as (rest & Hs & Hrest & Hfirst).
  exists (split_0 sep template), rest.
  split; [exact Hs |]. split; [exact Hrest |]. split; [exact Hfirst |].
  reflexivity.
Qed.

Lemma init_url_head_raises_leaves_interim_witness :
  let w := Sample.world [] (Raise (ForeignError "ConnectionError" "refused"))
             Sample.unreachable in
  let s := Sample.fresh Sample.tiles_url in
  ∃ before rest,
    "http://localhost:8000/ne/tiles/{tileMatrixSetId}/{tileMatrix}/{tileRow}/{tileCol}?f=mvt"
    = before ++ rest
    ∧ (rest = "" ∨ String.prefix "{tileMatrix}/{tileRow}/{tileCol}" rest = true)
    ∧ _service_metadata_url (self (MVTPmtilesProvider.__init__ w s).2)
      = Url (Sample.join before "metadata").
Proof.
  intros w s.
  destruct (init_url_head_raises_leaves_interim w s
              (ForeignError "ConnectionError" "refused") eq_refl eq_refl)
    as (before & rest & Hs & Hrest & _ & Hself).
  exists before, rest. split; [exact Hs |]. split; [exact Hrest |].
  by rewrite Hself.
Defined.

(** ** The renderers, further *)

(** X8: when the fetch succeeds with a document that has vector_layers,
    [get_html_metadata] returns a dictionary with exactly seven keys: the
    five of the envelope, metadata and tilejson_url.  The one tile URL of
    the nested descriptor is the very text stored under collections_path,
    and json_url and tilejson_url are one metadata URL with [?f=json] and
    [?f=tilejson] appended. *)
Theorem get_html_metadata_success_shape
    (w : World) (ds su la ts : string) (ti de ke : value)
    (kw : gmap string value) (s : State)
    (doc : gmap string value) (vl : value) :
  get_metadata_from_URL w (clock s) (_service_metadata_url (self s))
    = Return doc →
  doc !! "vector_layers" = Some vl →
  ∃ (metadata content : gmap string value)
    (collections_path metadata_url : string),
    (MVTPmtilesProvider.get_html_metadata w ds su la ts ti de ke kw s).1
      = Return metadata
    ∧ dom metadata
      = ({["id"; "title"; "tileset"; "collections_path"; "json_url";
           "metadata"; "tilejson_url"]} : gset string)
    ∧ metadata !! "id" = Some (VStr ds)
    ∧ metadata !! "title" = Some ti
    ∧ metadata !! "tileset" = Some (VStr ts)
    ∧ metadata !! "collections_path" = Some (VStr collections_path)
    ∧ metadata !! "json_url" = Some (VStr (metadata_url ++ "?f=json"))
    ∧ metadata !! "tilejson_url" = Some (VStr (metadata_url ++ "?f=tilejson"))
    ∧ metadata !! "metadata" = Some (VDict content)
    ∧ content !! "tiles" = Some (VList [VStr collections_path]).
Proof.
  intros Hfetch Hvl. rewrite get_html_metadata_eq. simpl.
  rewrite Hfetch. simpl. rewrite Hvl. do 4 eexists.
  split; [reflexivity |]. split.
  { unfold envelope. rewrite !dom_insert_L, dom_empty_L.
    apply set_eq. intros k. rewrite !elem_of_union, !elem_of_singleton.
    rewrite elem_of_empty. tauto. }
  repeat split.
Qed.

Lemma get_html_metadata_success_shape_witness :
  let w := Sample.world [] (Return 200%Z) (λ _, Return Sample.roads) in
  let s := (MVTPmtilesProvider.__init__ w (Sample.fresh Sample.tiles_url)).2 in
  ∃ (metadata content : gmap string value) (collections_path : string),
    (MVTPmtilesProvider.get_html_metadata w "ne" "http://localhost:5000" "ne"
       "WebMercatorQuad" (VStr "Natural Earth") VNone (VList []) ∅ s).1
      = Return metadata
    ∧ metadata !! "collections_path" = Some (VStr collections_path)
    ∧ metadata !! "metadata" = Some (VDict content)
    ∧ content !! "tiles" = Some (VList [VStr collections_path]).
Proof.
  intros w s.
  destruct (get_html_metadata_success_shape w "ne" "http://localhost:5000"
              "ne" "WebMercatorQuad" (VStr "Natural Earth") VNone (VList []) ∅
              s Sample.roads (VList [VDict {["id" := VStr "roads"]}])
              eq_refl eq_refl)
    as (metadata & content & cp & mu & Hret & _ & _ & _ & _ & Hcp & _ & _
        & Hmd & Htiles).
  exists metadata, content, cp. done.
Defined.

Lemma dict_lookup_but_tiles (c1 c2 : MVTTilesJson) (k : string) :
  set_tiles VNone c1 = set_tiles VNone c2 →
  k ≠ "tiles" →
  dict c1 !! k = dict c2 !! k.
Proof.
  intros Hc Hk. unfold set_tiles in Hc.
  injection Hc as H1 H2 H3 H4 H5 H6 H7 H8.
  unfold dict. rewrite !lookup_insert.
  repeat case_decide; congruence.
Qed.

(** X9: the two renderers agree.  On the same state, and whatever
    arguments each is given, [get_vendor_metadata] returns a descriptor
    exactly when [get_html_metadata] returns a dictionary that has the
    metadata key; the object under that key and the vendor descriptor then
    hold the same value under every key but tiles. *)
Theorem html_and_vendor_agree
    (w : World) (s : State)
    (ds su la ts : string) (ti de ke : value) (kw : gmap string value)
    (ds' su' la' ts' : string) (ti' de' ke' : value) (kw' : gmap string value) :
  let h := (MVTPmtilesProvider.get_html_metadata w ds su la ts ti de ke kw s).1 in
  let v := (MVTPmtilesProvider.get_vendor_metadata
              w ds' su' la' ts' ti' de' ke' kw' s).1 in
  ((∃ content, v = Return content)
   ↔ (∃ metadata, h = Return metadata ∧ is_Some (metadata !! "metadata")))
  ∧ (∀ content, v = Return content →
       ∃ metadata nested,
         h = Return metadata
         ∧ metadata !! "metadata" = Some (VDict nested)
         ∧ ∀ k, k ≠ "tiles" → nested !! k = content !! k).
Proof.
  intros h v. subst h v.
  rewrite get_html_metadata_eq, get_vendor_metadata_eq. simpl.
  destruct (get_metadata_from_URL w (clock s) _) as [doc|e]; simpl.
  - destruct (doc !! "vector_layers") as [vl|]; simpl.
    + split.
      * split; intros _; eexists; [split; [reflexivity | by eexists]
                                  | reflexivity].
      * intros content [= <-]. do 2 eexists.
        split; [reflexivity |]. split; [reflexivity |].
        intros k Hk. by apply dict_lookup_but_tiles.
    + split.
      * split; [intros [? H] | intros (? & H & _)]; discriminate H.
      * intros content H. discriminate H.
  - destruct e; simpl; (split;
      [ split; [intros [? H]; discriminate H |]
      | intros content H; discriminate H ]).
    + intros (metadata & [= <-] & [x Hx]). discriminate Hx.
    + intros (? & H & _). discriminate H.
    + intros (? & H & _). discriminate H.
    + intros (? & H & _). discriminate H.
Qed.

Lemma html_and_vendor_agree_witness :
  let w := Sample.world [] (Return 200%Z) (λ _, Return Sample.roads) in
  let s := (MVTPmtilesProvider.__init__ w (Sample.fresh Sample.tiles_url)).2 in
  ∃ metadata,
    (MVTPmtilesProvider.get_html_metadata w "ne" "http://localhost:5000" "ne"
       "WebMercatorQuad" (VStr "Natural Earth") VNone (VList []) ∅ s).1
      = Return metadata
    ∧ is_Some (metadata !! "metadata").
Proof.
  intros w s.
  apply (proj1 (html_and_vendor_agree w s
                  "ne" "http://localhost:5000" "ne" "WebMercatorQuad"
                  (VStr "Natural Earth") VNone (VList []) ∅
                  "other" "http://elsewhere" "x" "y" VNone VNone VNone ∅)).
  eexists. reflexivity.
Defined.

(** X10: how the renderers fail when the fetch either raises or returns a
    dictionary.  [get_html_metadata] then raises [e] exactly
    when the fetch raised [e] and [e] is not a connection error, or the
    fetched document has no vector_layers and [e] is the [KeyError].
    [get_vendor_metadata] raises in those two cases and in a third: the
    fetch raised a connection error, and [e] is then a connection error
    whose message is built from the metadata location alone, the message of
    the original error being dropped. *)
Theorem render_raise_cases
    (w : World) (s : State) (ds su la ts : string) (ti de ke : value)
    (kw : gmap string value) (e : exn) :
  let location := _service_metadata_url (self s) in
  let fetched := get_metadata_from_URL w (clock s) location in
  let foreign := fetched = Raise e ∧ ∀ m, e ≠ ProviderConnectionError m in
  let missing := ∃ doc, fetched = Return doc
                        ∧ doc !! "vector_layers" = None
                        ∧ e = KeyError "vector_layers" in
  let unreachable := (∃ m, fetched = Raise (ProviderConnectionError m))
                     ∧ e = ProviderConnectionError
                             ("No tiles metadata json available: "
                                ++ str location) in
  ((MVTPmtilesProvider.get_html_metadata w ds su la ts ti de ke kw s).1
     = Raise e ↔ foreign ∨ missing)
  ∧ ((MVTPmtilesProvider.get_vendor_metadata w ds su la ts ti de ke kw s).1
       = Raise e ↔ foreign ∨ missing ∨ unreachable).
Proof.
  intros location fetched foreign missing unreachable.
  subst foreign missing unreachable.
  rewrite get_html_metadata_eq, get_vendor_metadata_eq. simpl.
  fold location. fold fetched.
  destruct fetched as [doc|e0]; simpl.
  - destruct (doc !! "vector_layers") as [vl|] eqn:Hvl; simpl.
    + split; (split; [discriminate |]); naive_solver.
    + split; (split; [intros [= <-]; naive_solver | naive_solver]).
  - destruct e0 as [m| | |]; simpl.
    + split; split; try discriminate; naive_solver.
    + split; (split; [intros [= <-] | ]; naive_solver).
    + split; (split; [intros [= <-] | ]; naive_solver).
    + split; (split; [intros [= <-] | ]; naive_solver).
Qed.

Lemma render_raise_cases_witness :
  let w := Sample.world [] (Return 404%Z) Sample.unreachable in
  let s := (MVTPmtilesProvider.__init__ w (Sample.fresh Sample.tiles_url)).2 in
  (MVTPmtilesProvider.get_vendor_metadata w "ne" "http://localhost:5000" "ne"
     "WebMercatorQuad" (VStr "Natural Earth") VNone (VList []) ∅ s).1
  = Raise (ProviderConnectionError
      "No tiles metadata json available: http://localhost:8000//ne.json").
Proof.
  intros w s.
  apply (proj2 (render_raise_cases w s "ne" "http://localhost:5000" "ne"
                  "WebMercatorQuad" (VStr "Natural Earth") VNone (VList []) ∅
                  _)).
  right. right. split; [by eexists | reflexivity].
Defined.

(** X11: [get_html_metadata] never writes to the log.
    [get_vendor_metadata] writes one line, at error level and equal to the
    message it raises, when it raises a connection error, and nothing
    otherwise. *)
Theorem render_logging
    (w : World) (s : State) (ds su la ts : string) (ti de ke : value)
    (kw : gmap string value) :
  let v := MVTPmtilesProvider.get_vendor_metadata w ds su la ts ti de ke kw s in
  log (MVTPmtilesProvider.get_html_metadata w ds su la ts ti de ke kw s).2
    = log s
  ∧ (∀ msg, v.1 = Raise (ProviderConnectionError msg) →
            log v.2 = (log s ++ [(ERROR, msg)])%list)
  ∧ ((∀ msg, v.1 ≠ Raise (ProviderConnectionError msg)) → log v.2 = log s).
Proof.
  intros v. subst v.
  rewrite get_html_metadata_eq, get_vendor_metadata_eq. simpl.
  split; [reflexivity |].
  destruct (get_metadata_from_URL w (clock s) _) as [doc|e]; simpl.
  - destruct (doc !! "vector_layers"); simpl;
      (split; [discriminate | intros _; by rewrite app_nil_r]).
  - destruct e; simpl;
      try (split; [discriminate | intros _; by rewrite app_nil_r]).
    split; [by intros msg0 [= <-] |]. intros H. by destruct (H _ eq_refl).
Qed.

Lemma render_logging_witness :
  let w := Sample.world [] (Return 404%Z) Sample.unreachable in
  let s := Sample.fresh Sample.tiles_url in
  log (MVTPmtilesProvider.get_vendor_metadata w "ne" "http://localhost:5000"
         "ne" "WebMercatorQuad" (VStr "Natural Earth") VNone (VList []) ∅ s).2
  = [(ERROR, "No tiles metadata json available: ")].
Proof.
  intros w s.
  apply (proj1 (proj2 (render_logging w s "ne" "http://localhost:5000" "ne"
                         "WebMercatorQuad" (VStr "Natural Earth") VNone
                         (VList []) ∅))).
  reflexivity.
Defined.

(** X12: of the instance, the renderers read the metadata location and
    nothing else: on two instances that store the same metadata location,
    whatever their [data] and [_service_url], a call made at the same moment
    has the same outcome. *)
Theorem render_reads_metadata_location_only
    (w : World) (c : call) (s1 s2 : State) :
  _service_metadata_url (self s1) = _service_metadata_url (self s2) →
  clock s1 = clock s2 →
  (perform w c s1).1 = (perform w c s2).1.
Proof.
  intros Hloc Hclock. rewrite !perform_outcome, Hloc, Hclock.
  destruct c; simpl; by rewrite ?Hloc.
Qed.

Lemma render_reads_metadata_location_only_witness :
  let w := Sample.world [] (Return 200%Z) (λ _, Return Sample.roads) in
  let c := vendor "ne" "http://localhost:5000" "ne" "WebMercatorQuad"
             (VStr "Natural Earth") VNone (VList []) ∅ in
  (perform w c (Sample.fresh Sample.tiles_url)).1
  = (perform w c (Sample.fresh "/srv/tiles/ne")).1.
Proof.
  intros w c.
  apply (render_reads_metadata_location_only w c); reflexivity.
Defined.

Lemma reshaped_ext (w : World) (u : string) (doc1 doc2 : gmap string value)
    (vl : value) :
  (∀ k, k ∈ descriptor_keys → doc1 !! k = doc2 !! k) →
  reshaped w u doc1 vl = reshaped w u doc2 vl.
Proof.
  intros H. unfold reshaped, descriptor_keys in *.
  rewrite !(H "name"), !(H "description"), !(H "attribution"), !(H "bounds"),
    !(H "center"), !(H "minzoom"), !(H "maxzoom");
    [reflexivity | rewrite !elem_of_cons; tauto ..].
Qed.

(** X13: of the fetched document, the renderers read the eight descriptor
    keys and nothing else: two documents that agree on name, description,
    attribution, bounds, center, minzoom, maxzoom and vector_layers give the
    same outcome.  Any other key, the document's own tiles included, never
    reaches the output. *)
Theorem render_reads_descriptor_keys_only
    (w : World) (c : call) (s : State)
    (f1 f2 : nat → location → result (gmap string value))
    (doc1 doc2 : gmap string value) :
  f1 (clock s) (_service_metadata_url (self s)) = Return doc1 →
  f2 (clock s) (_service_metadata_url (self s)) = Return doc2 →
  (∀ k, k ∈ descriptor_keys → doc1 !! k = doc2 !! k) →
  (perform (with_fetch w f1) c s).1 = (perform (with_fetch w f2) c s).1.
Proof.
  intros H1 H2 Hkeys.
  rewrite !perform_outcome, !outcome_with_fetch. simpl. rewrite H1, H2.
  assert (Hvl : doc1 !! "vector_layers" = doc2 !! "vector_layers").
  { apply Hkeys. unfold descriptor_keys. rewrite !elem_of_cons. tauto. }
  destruct c; simpl; rewrite Hvl;
    destruct (doc2 !! "vector_layers"); try reflexivity;
    by rewrite (reshaped_ext w _ doc1 doc2 _ Hkeys).
Qed.

Lemma render_reads_descriptor_keys_only_witness :
  let w := Sample.world [] (Return 200%Z) Sample.unreachable in
  let c := vendor "ne" "http://localhost:5000" "ne" "WebMercatorQuad"
             (VStr "Natural Earth") VNone (VList []) ∅ in
  let s := Sample.fresh Sample.tiles_url in
  let noisy := <["tiles" := VList [VStr "http://upstream/{z}/{x}/{y}"]]>
                 (<["tilejson" := VStr "3.0.0"]> Sample.roads) in
  (perform (with_fetch w (λ _ _, Return noisy)) c s).1
  = (perform (with_fetch w (λ _ _, Return Sample.roads)) c s).1.
Proof.
  intros w c s noisy.
  apply (render_reads_descriptor_keys_only w c s _ _ noisy Sample.roads);
    [reflexivity | reflexivity |].
  intros k Hk. unfold descriptor_keys in Hk.
  rewrite !elem_of_cons, elem_of_nil in Hk.
  destruct Hk as [->|[->|[->|[->|[->|[->|[->|[->|[]]]]]]]]]; reflexivity.
Defined.

(** ** Constructing, then rendering *)

Lemma init_returns_location (w : World) (s : State) :
  (MVTPmtilesProvider.__init__ w s).1 = Return () →
  _service_metadata_url (self (MVTPmtilesProvider.__init__ w s).2)
  = metadata_location w (data (self s)).
Proof.
  unfold metadata_location.
  destruct (is_url w (data (self s))) eqn:Hurl.
  - rewrite (init_url_eq w s Hurl).
    destruct (requests_head w (clock s) _); simpl; [done | discriminate].
  - rewrite (init_local_eq w s Hurl).
    destruct (path_exists w (clock s) _); simpl; [done | discriminate].
Qed.

(** X14: an instance the constructor returned keeps its descriptor at the
    location the constructor probed (the URL of the HEAD request, or the
    [metadata] file under the local path), and the renderers fetch from
    there and from nowhere else: whatever calls are made on it, their
    outcomes are the same in two worlds that answer the fetches of that one
    location alike, however they answer all others. *)
Theorem constructed_instance_fetches_probed_location
    (w : World) (s : State) (cs : list call)
    (f1 f2 : nat → location → result (gmap string value)) :
  (MVTPmtilesProvider.__init__ w s).1 = Return () →
  let built := (MVTPmtilesProvider.__init__ w s).2 in
  let location := metadata_location w (data (self s)) in
  (∀ t, f1 t location = f2 t location) →
  _service_metadata_url (self built) = location
  ∧ (run (with_fetch w f1) cs built).1 = (run (with_fetch w f2) cs built).1.
Proof.
  intros Hret built location Hsame.
  pose proof (init_returns_location w s Hret) as Hloc.
  fold built location in Hloc. split; [exact Hloc |].
  apply list_eq. intros i.
  destruct (cs !! i) as [c|] eqn:Hc.
  - rewrite !(run_lookup _ cs built i c Hc), !outcome_with_fetch. simpl.
    by rewrite Hloc, Hsame.
  - apply lookup_ge_None in Hc.
    transitivity (@None (result (gmap string value)));
      [| symmetry]; apply lookup_ge_None; by rewrite run_length.
Qed.

Lemma constructed_instance_fetches_probed_location_witness :
  let w := Sample.world ["/srv/tiles/ne"] (Return 200%Z) Sample.unreachable in
  let s := Sample.fresh "/srv/tiles/ne" in
  let f1 := λ (_ : nat) (l : location),
              match l with
              | PosixPath _ => Return Sample.roads
              | Url _ => Raise (KeyError "elsewhere")
              end in
  let f2 := λ (_ : nat) (_ : location), Return Sample.roads in
  let cs := [vendor "ne" "http://localhost:5000" "ne" "WebMercatorQuad"
               (VStr "Natural Earth") VNone (VList []) ∅] in
  _service_metadata_url (self (MVTPmtilesProvider.__init__ w s).2)
    = PosixPath "/srv/tiles/ne/metadata"
  ∧ (run (with_fetch w f1) cs (MVTPmtilesProvider.__init__ w s).2).1
    = (run (with_fetch w f2) cs (MVTPmtilesProvider.__init__ w s).2).1.
Proof.
  intros w s f1 f2 cs.
  apply (constructed_instance_fetches_probed_location w s cs f1 f2);
    reflexivity.
Defined.

(** X15: [__repr__] changes nothing and prints the configured data after
    the class tag; since neither the constructor (returning or raising) nor
    any renderer assigns [data], it prints the same text after them as
    before. *)
Theorem repr_stable (w : World) (s : State) (cs : list call) :
  let text := "<MVTPmtilesProvider> " ++ data (self s) in
  MVTPmtilesProvider.__repr__ s = (Return text, s)
  ∧ (MVTPmtilesProvider.__repr__ (MVTPmtilesProvider.__init__ w s).2).1
    = Return text
  ∧ (MVTPmtilesProvider.__repr__ (run w cs s).2).1 = Return text.
Proof.
  intros text. subst text. split; [reflexivity |]. split.
  - unfold MVTPmtilesProvider.__repr__, mbind, M_bind, self_data, mret, M_ret.
    simpl.
    destruct (is_url w (data (self s))) eqn:Hurl.
    + rewrite (init_url_eq w s Hurl).
      by destruct (requests_head w (clock s) _).
    + rewrite (init_local_eq w s Hurl).
      by destruct (path_exists w (clock s) _).
  - unfold MVTPmtilesProvider.__repr__, mbind, M_bind, self_data, mret, M_ret.
    simpl. by rewrite run_self.
Qed.

(** X16: what the constructor probes after [super().__init__].  On a URL
    configuration the HEAD request of line 88 goes, at the moment it is
    sent, to the very URL that is stored as the metadata location; on a
    local path lines 98 and 104 ask for the path itself and then, one step
    later, for the [metadata] file under it.  Worlds that answer those
    probes alike give these lines the same outcome and final state, however
    they answer any other.  The probes of the parent constructor are not
    covered. *)
Theorem init_probes (w : World) (s : State) :
  (is_url w (data (self s)) = true →
   ∀ h, h (clock s) (metadata_json w (data (self s)))
        = requests_head w (clock s) (metadata_json w (data (self s))) →
        MVTPmtilesProvider.__init__ (with_head w h) s
        = MVTPmtilesProvider.__init__ w s)
  ∧ (is_url w (data (self s)) = false →
     ∀ ex, ex (clock s) (Path w (data (self s)))
           = path_exists w (clock s) (Path w (data (self s))) →
           ex (S (clock s)) (metadata_file w (data (self s)))
           = path_exists w (S (clock s)) (metadata_file w (data (self s))) →
           MVTPmtilesProvider.__init__ (with_exists w ex) s
           = MVTPmtilesProvider.__init__ w s).
Proof.
  split.
  - intros Hurl h Hh.
    rewrite (init_url_eq (with_head w h) s Hurl), (init_url_eq w s Hurl).
    simpl. unfold metadata_json in *. simpl. by rewrite Hh.
  - intros Hurl ex Hdir Hfile.
    rewrite (init_local_eq (with_exists w ex) s Hurl), (init_local_eq w s Hurl).
    simpl. unfold metadata_file in *. simpl. by rewrite Hdir, Hfile.
Qed.

Lemma init_probes_witness :
  let w := Sample.world [] (Return 404%Z) Sample.unreachable in
  let s := Sample.fresh Sample.tiles_url in
  let h := λ (_ : nat) (url : string),
             if String.eqb url "http://localhost:8000//ne.json"
             then Return 404%Z
             else Raise (ForeignError "ConnectionError" "refused") in
  MVTPmtilesProvider.__init__ (with_head w h) s
  = MVTPmtilesProvider.__init__ w s.
Proof.
  intros w s h.
  apply (proj1 (init_probes w s)); reflexivity.
Defined.
